(** * video-storage: a shallow embedding of [video-storage/src/index.js]

    The microservice is an Express application in front of an S3-compatible
    bucket (IBM COS).  This development embeds

    - the module-level globals read from [process.env] ([PORT], [CONFIG], ...),
    - the start-up function [main] and the top-level script around it,
    - the four request handlers (readiness, download, upload, 404 fallback),
    - the process-wide [READINESS_PROBE] flag,
    - the listing helper [getListOfFiles], which no route calls,

    and proves properties of them.

    Conventions.  A JavaScript value that may be [undefined] is an [option];
    [process.env], [req.headers] and [req.query] are finite maps from names
    to strings.  Strings are byte strings (the UTF-8 form of the JavaScript
    string).  The libraries the file calls (Express, the COS SDK, winston)
    are not part of the repository: the response object, the logger and the
    storage client are modelled by the calls the handlers make on them,
    and what the constructor of the storage client and [app.listen] throw
    is a parameter of start-up ([Platform]). *)

From Stdlib Require Import ZArith String Ascii List Bool Lia DecimalString.
From Stdlib Require DecimalPos.
From stdpp Require Import gmap strings.
Import ListNotations.

Local Open Scope string_scope.
Local Open Scope Z_scope.

(** ** JavaScript strings and numbers *)

Module Js.

Definition code (c : ascii) : N := N_of_ascii c.

(** [String.prototype.toLowerCase] on the ASCII letters.  Bytes of
    non-ASCII characters are left as they are: the program only compares
    the result with the ASCII literals ['hmac'] and ['iam'], and no
    non-ASCII character lower-cases to one of the letters of these. *)
Definition lower (c : ascii) : ascii :=
  let n := code c in
  if ((65 <=? n) && (n <=? 90))%N then ascii_of_N (n + 32) else c.

Fixpoint toLowerCase (s : string) : string :=
  match s with
  | EmptyString => EmptyString
  | String c s' => String (lower c) (toLowerCase s')
  end.

(** A Number that is an integer, an infinity or NaN.  [Int z] is the
    double with the integer value [z]; the functions below only build it
    for a [z] that a double can hold ([to_double] rounds).  [Int 0]
    stands for both zeros. *)
Inductive Number :=
| NaN
| Int (z : Z)
| Infinity (negative : bool).

(** The double nearest to an integer (ties to even): every integer up to
    2^53 in absolute value is one; beyond, 53 significant bits are kept;
    from 2^1024 - 2^970 on the result is infinite. *)
Definition to_double (z : Z) : Number :=
  let m := Z.abs z in
  if m <=? 2 ^ 53 then Int z
  else
    let e := Z.log2 m - 52 in
    let q := m / 2 ^ e in
    let r := m mod 2 ^ e in
    let half := 2 ^ (e - 1) in
    let q' :=
      if r <? half then q
      else if half <? r then q + 1
      else if Z.even q then q else q + 1 in
    let v := q' * 2 ^ e in
    if 2 ^ 1024 <=? v then Infinity (z <? 0) else Int (Z.sgn z * v).

(** ToBoolean on a Number: NaN, +0 and -0 are falsy. *)
Definition truthy (n : Number) : bool :=
  match n with
  | NaN => false
  | Int z => negb (z =? 0)
  | Infinity _ => true
  end.

(** ToBoolean on a possibly undefined string: [undefined] and the empty
    string are falsy. *)
Definition present (v : option string) : bool :=
  match v with
  | None => false
  | Some s => negb (String.eqb s "")
  end.

(** The decimal numeral of an integer. *)
Definition decimal (m : Z) : string := NilZero.string_of_int (Z.to_int m).

(** The integer [v] rounds to the double [m]. *)
Definition reads_as (m v : Z) : bool :=
  match to_double v with
  | Int x => x =? m
  | _ => false
  end.

(** The integer nearest to [m] among those with [k] significant digits
    ([n0] is the number of digits of [m]), if it rounds to [m]. *)
Definition candidate (m n0 k : Z) : option Z :=
  let p := n0 - k in
  if p <? 0 then None
  else
    let unit := 10 ^ p in
    let lo := m / unit in
    let below := lo * unit in
    let above := (lo + 1) * unit in
    match reads_as m below, reads_as m above with
    | true, false => Some below
    | false, true => Some above
    | true, true =>
        if m - below <? above - m then Some below
        else if above - m <? m - below then Some above
        else if Z.even lo then Some below else Some above
    | false, false => None
    end.

Fixpoint shortest_from (m n0 k : Z) (tries : nat) : Z :=
  match tries with
  | O => m
  | S tries' =>
      match candidate m n0 k with
      | Some v => v
      | None => shortest_from m n0 (k + 1) tries'
      end
  end.

(** The integer with the fewest significant digits that rounds to the
    double [m]; seventeen digits always do. *)
Definition shortest (m : Z) : Z :=
  shortest_from m (Z.of_nat (String.length (decimal m))) 1 17.

Fixpoint strip_zeros (reversed : list ascii) : list ascii :=
  match reversed with
  | "0"%char :: rest => strip_zeros rest
  | _ => reversed
  end.

(** [d.ddde+n], for an integer of more than 21 digits. *)
Definition exponent_form (v : Z) : string :=
  let ds := list_ascii_of_string (decimal v) in
  let n := Z.of_nat (List.length ds) in
  match rev (strip_zeros (rev ds)) with
  | [] => "0"
  | d :: [] => String d ("e+" ++ decimal (n - 1))
  | d :: more => String d ("." ++ string_of_list_ascii more ++ "e+" ++ decimal (n - 1))
  end.

(** Number::toString.  An integer up to 2^53 in absolute value prints as
    its decimal numeral; a larger one prints with the fewest significant
    digits that read back as the same double, followed by zeros below
    10^21 and in exponent form from there on. *)
Definition show (n : Number) : string :=
  match n with
  | NaN => "NaN"
  | Infinity negative => if negative then "-Infinity" else "Infinity"
  | Int z =>
      if Z.abs z <=? 2 ^ 53 then decimal z
      else
        match to_double z with
        | Int x =>
            let v := shortest (Z.abs x) in
            (if x <? 0 then "-" else "")
            ++ (if v <? 10 ^ 21 then decimal v else exponent_form v)
        | Infinity negative => if negative then "-Infinity" else "Infinity"
        | NaN => "NaN"
        end
  end.

(** Template-literal interpolation of a possibly undefined string. *)
Definition interp (v : option string) : string :=
  match v with
  | None => "undefined"
  | Some s => s
  end.

(** *** parseInt(string), radix omitted *)

(** WhiteSpace and LineTerminator code points below 128: TAB, LF, VT, FF,
    CR, SP. *)
Definition ws1 (a : ascii) : bool :=
  let n := code a in
  (((9 <=? n) && (n <=? 13)) || (n =? 32))%N.

(** U+00A0, in UTF-8. *)
Definition ws2 (a b : ascii) : bool :=
  ((code a =? 194) && (code b =? 160))%N.

(** U+1680, U+2000..U+200A, U+2028, U+2029, U+202F, U+205F, U+3000 and
    U+FEFF, in UTF-8. *)
Definition ws3 (a b c : ascii) : bool :=
  let x := code a in
  let y := code b in
  let z := code c in
  (((x =? 225) && (y =? 154) && (z =? 128))
   || ((x =? 226) && (y =? 128)
       && (((128 <=? z) && (z <=? 138)) || (z =? 168) || (z =? 169) || (z =? 175)))
   || ((x =? 226) && (y =? 129) && (z =? 159))
   || ((x =? 227) && (y =? 128) && (z =? 128))
   || ((x =? 239) && (y =? 187) && (z =? 191)))%N.

(** TrimString(s, start). *)
Fixpoint trimStart (s : string) : string :=
  match s with
  | EmptyString => s
  | String a s1 =>
      if ws1 a then trimStart s1
      else
        match s1 with
        | EmptyString => s
        | String b s2 =>
            if ws2 a b then trimStart s2
            else
              match s2 with
              | EmptyString => s
              | String c s3 => if ws3 a b c then trimStart s3 else s
              end
        end
  end.

(** The value of a radix-[R] digit, for [R] 10 or 16. *)
Definition digit (R : Z) (c : ascii) : option Z :=
  let n := Z.of_N (code c) in
  let v :=
    if (48 <=? n) && (n <=? 57) then Some (n - 48)
    else if (97 <=? n) && (n <=? 122) then Some (n - 87)
    else if (65 <=? n) && (n <=? 90) then Some (n - 55)
    else None in
  match v with
  | Some d => if d <? R then Some d else None
  | None => None
  end.

(** The longest prefix of radix-[R] digits, read as an integer; [None]
    when that prefix is empty. *)
Fixpoint digits (R : Z) (s : string) (acc : option Z) : option Z :=
  match s with
  | EmptyString => acc
  | String c s' =>
      match digit R c with
      | Some d => digits R s' (Some (R * default 0 acc + d))
      | None => acc
      end
  end.

Definition parseInt (input : string) : Number :=
  let trimmed := trimStart input in
  let '(sign, unsigned) :=
    match trimmed with
    | String "-"%char rest => (-1, rest)
    | String "+"%char rest => (1, rest)
    | _ => (1, trimmed)
    end in
  let '(R, numeral) :=
    match unsigned with
    | String "0"%char (String "x"%char rest) => (16, rest)
    | String "0"%char (String "X"%char rest) => (16, rest)
    | _ => (10, unsigned)
    end in
  match digits R numeral None with
  | None => NaN
  | Some mathInt => to_double (sign * mathInt)
  end.

End Js.

Import Js.

(** ** Errors and log records *)

(** A JavaScript error object: its [name], its [code] (set by the storage
    SDK, absent on errors the program creates itself) and its [message]. *)
Record JsError := {
  err_name : string;
  err_code : option string;
  err_message : string
}.

(** [new Error(message)]. *)
Definition Error (message : string) : JsError :=
  {| err_name := "Error"; err_code := None; err_message := message |}.

(** The error of a method call on [undefined], with the message V8 gives
    it. *)
Definition TypeError (method : string) : JsError :=
  {| err_name := "TypeError"; err_code := None;
     err_message := "Cannot read properties of undefined (reading '" ++ method ++ "')" |}.

Inductive Level := info | error.

(** What is handed to the logger as its first argument: a text, an error
    object, or the stack of an error object. *)
Inductive LogMessage :=
| Text (s : string)
| OfError (e : JsError)
| StackOf (e : JsError).

(** One call [logger.<level>(message, { app, service, requestId })]. *)
Record LogLine := {
  level : Level;
  message : LogMessage;
  app : option string;
  service : option string;
  requestId : option string
}.

(** Code that may throw. *)
Definition Throws (A : Type) : Type := JsError + A.

Definition throw {A} (e : JsError) : Throws A := inl e.
Definition ret {A} (a : A) : Throws A := inr a.
Definition bind {A B} (m : Throws A) (k : A -> Throws B) : Throws B :=
  match m with
  | inl e => inl e
  | inr a => k a
  end.

Notation "'let!' x ':=' m 'in' k" := (bind m (fun x => k))
  (at level 10, x name, m at level 100, k at level 200).

(** [v.toLowerCase()] on a value that may be [undefined]. *)
Definition call_toLowerCase (v : option string) : Throws string :=
  match v with
  | None => throw (TypeError "toLowerCase")
  | Some s => ret (toLowerCase s)
  end.

(** ** The environment and the globals *)

(** The environment variables the program reads by name. *)
Inductive Setting :=
| SVC_NAME
| APP_NAME_VER
| BUCKET_NAME
| AUTHENTICATION_TYPE
| API_KEY
| ENDPOINT
| ACCESS_KEY_ID
| SECRET_ACCESS_KEY
| SERVICE_INSTANCE_ID
| REGION.

Definition name (v : Setting) : string :=
  match v with
  | SVC_NAME => "SVC_NAME"
  | APP_NAME_VER => "APP_NAME_VER"
  | BUCKET_NAME => "BUCKET_NAME"
  | AUTHENTICATION_TYPE => "AUTHENTICATION_TYPE"
  | API_KEY => "API_KEY"
  | ENDPOINT => "ENDPOINT"
  | ACCESS_KEY_ID => "ACCESS_KEY_ID"
  | SECRET_ACCESS_KEY => "SECRET_ACCESS_KEY"
  | SERVICE_INSTANCE_ID => "SERVICE_INSTANCE_ID"
  | REGION => "REGION"
  end.

(** [process.env]. *)
Abbreviation Env := (gmap string string).

(** [process.env.<v>], which is also the value of the global constant of
    that name. *)
Definition getenv (env : Env) (v : Setting) : option string := env !! name v.

(** [const PORT = process.env.PORT && parseInt(process.env.PORT) || 3000]. *)
Definition PORT (env : Env) : Number :=
  match env !! "PORT" with
  | None => Int 3000
  | Some s =>
      if String.eqb s "" then Int 3000
      else
        let n := parseInt s in
        if truthy n then n else Int 3000
  end.

(** The two shapes of the object handed to [new cos.S3]. *)
Inductive S3Config :=
| HmacConfig (apiVersion : string)
    (accessKeyId secretAccessKey region endpoint : option string)
| IamConfig (apiVersion : string)
    (apiKeyId serviceInstanceId endpoint : option string).

(** [const CONFIG = AUTHENTICATION_TYPE.toLowerCase() === 'hmac' ? {..} : {..}]. *)
Definition CONFIG (env : Env) : Throws S3Config :=
  let! a := call_toLowerCase (getenv env AUTHENTICATION_TYPE) in
  ret (if String.eqb a "hmac"
       then HmacConfig "latest" (getenv env ACCESS_KEY_ID)
              (getenv env SECRET_ACCESS_KEY) (getenv env REGION) (getenv env ENDPOINT)
       else IamConfig "latest" (getenv env API_KEY)
              (getenv env SERVICE_INSTANCE_ID) (getenv env ENDPOINT)).

(** The record of a call
    [logger.<l>(m, { app:APP_NAME_VER, service:SVC_NAME, requestId:rid })]. *)
Definition log (env : Env) (l : Level) (m : LogMessage) (rid : option string) : LogLine :=
  {| level := l; message := m;
     app := getenv env APP_NAME_VER; service := getenv env SVC_NAME;
     requestId := rid |}.

(** ** Start-up *)

(** The message of the error [main] throws for a setting that is not set.
    ([SVC_NAME] and [APP_NAME_VER] are never required.) *)
Definition missing (v : Setting) : string :=
  match v with
  | BUCKET_NAME =>
      "Please specify the bucket name of an IBM COS account in the environment variable BUCKET_NAME."
  | ENDPOINT =>
      "Please specify the endpoint for the IBM COS account in the environment variable ENDPOINT."
  | AUTHENTICATION_TYPE =>
      "Please specify the type of authentication to use in the environment variable AUTHENTICATION_TYPE."
  | REGION =>
      "Please specify the region in the environment variable REGION."
  | SECRET_ACCESS_KEY =>
      "Please specify the HMAC secret access key in the environment variable SECRET_ACCESS_KEY."
  | ACCESS_KEY_ID =>
      "Please specify the HMAC access key id in the environment variable ACCESS_KEY_ID."
  | API_KEY =>
      "Please specify the API key of an IBM COS account in the environment variable API_KEY."
  | SERVICE_INSTANCE_ID =>
      "Please specify the service instance Id for the IBM COS account in the environment variable SERVICE_INSTANCE_ID."
  | SVC_NAME | APP_NAME_VER => ""
  end.

Definition unknown_type (a : option string) : string :=
  "Unknown authentication type (" ++ interp a ++ ").".

Definition port_notice (env : Env) : LogLine :=
  log env info
    (Text ("The environment variable PORT for the HTTP server is missing; using port "
           ++ show (PORT env) ++ "."))
    (Some "-1").

(** The checks of [main], up to the first [throw]. *)
Definition validate (env : Env) : Throws unit :=
  if negb (present (getenv env BUCKET_NAME)) then throw (Error (missing BUCKET_NAME))
  else if negb (present (getenv env ENDPOINT)) then throw (Error (missing ENDPOINT))
  else if negb (present (getenv env AUTHENTICATION_TYPE))
       then throw (Error (missing AUTHENTICATION_TYPE))
  else
    let! a := call_toLowerCase (getenv env AUTHENTICATION_TYPE) in
    if String.eqb a "hmac" then
      if negb (present (getenv env REGION)) then throw (Error (missing REGION))
      else if negb (present (getenv env SECRET_ACCESS_KEY))
           then throw (Error (missing SECRET_ACCESS_KEY))
      else if negb (present (getenv env ACCESS_KEY_ID))
           then throw (Error (missing ACCESS_KEY_ID))
      else ret tt
    else
      let! b := call_toLowerCase (getenv env AUTHENTICATION_TYPE) in
      if String.eqb b "iam" then
        if negb (present (getenv env API_KEY)) then throw (Error (missing API_KEY))
        else if negb (present (getenv env SERVICE_INSTANCE_ID))
             then throw (Error (missing SERVICE_INSTANCE_ID))
        else ret tt
      else throw (Error (unknown_type (getenv env AUTHENTICATION_TYPE))).

(** [main()]: the checks, the notice about [PORT], and the call
    [app.listen(PORT, ...)] inside the promise it returns.  The result is
    the lines logged and the port handed to [app.listen]. *)
Definition main (env : Env) : Throws (list LogLine * Number) :=
  let! _ := validate env in
  let notice :=
    match env !! "PORT" with
    | None => [port_notice env]
    | Some _ => []
    end in
  ret (notice, PORT env).

(** The handler installed by [process.on('uncaughtException', ...)]. *)
Definition uncaughtException (env : Env) (err : JsError) : list LogLine :=
  [ log env error (Text "Uncaught exception.") (Some "-1");
    log env error (OfError err) (Some "-1");
    log env error (StackOf err) (Some "-1") ].

(** The [.catch] callback of [main()]. *)
Definition failed_to_start (env : Env) (err : JsError) : list LogLine :=
  [ log env error (Text "Microservice failed to start.") (Some "-1");
    log env error (OfError err) (Some "-1");
    log env error (StackOf err) (Some "-1") ].

(** The two library calls of start-up whose code is not the repository's:
    what [new cos.S3(CONFIG)] throws for a configuration object, and what
    [app.listen(PORT, ...)] throws for a port, if anything. *)
Record Platform := {
  new_S3 : S3Config -> option JsError;
  app_listen : Number -> option JsError
}.

(** How the script ends up when it is run directly. *)
Inductive Outcome :=
| Crashed (e : JsError)
    (** thrown while the globals are evaluated, by [CONFIG] or by
        [new cos.S3(CONFIG)]: no handler is installed yet, the process
        dies *)
| Resumed (e : JsError) (logs : list LogLine)
    (** thrown by [main()], a synchronous throw that reaches the
        [uncaughtException] handler: the rest of the script (the routes) is
        not evaluated and [app.listen] was not called *)
| Refused (cfg : S3Config) (logs : list LogLine) (port : Number)
    (e : JsError) (report : list LogLine)
    (** [main()] returned its promise and [app.listen(port)] threw inside
        it: the promise is rejected, the [.catch] callback logs [report],
        nothing listens *)
| Started (cfg : S3Config) (logs : list LogLine) (port : Number).
    (** [main()] returned its promise and [app.listen(port)] returned *)

(** The script from its first line to the call of [main()] and the
    callbacks on its promise. *)
Definition start (P : Platform) (env : Env) : Outcome :=
  match CONFIG env with
  | inl e => Crashed e
  | inr cfg =>
      match new_S3 P cfg with
      | Some e => Crashed e
      | None =>
          match main env with
          | inl e => Resumed e (uncaughtException env e)
          | inr (logs, port) =>
              match app_listen P port with
              | Some e => Refused cfg logs port e (failed_to_start env e)
              | None => Started cfg logs port
              end
          end
      end
  end.

(** What [new cos.S3(CONFIG)] throws, if [CONFIG] is evaluated and the
    constructor throws. *)
Definition client_error (P : Platform) (env : Env) : option JsError :=
  match CONFIG env with
  | inl _ => None
  | inr cfg => new_S3 P cfg
  end.

(** The error start-up failed with, if any. *)
Definition failure (o : Outcome) : option JsError :=
  match o with
  | Crashed e | Resumed e _ | Refused _ _ _ e _ => Some e
  | Started _ _ _ => None
  end.

(** The port [app.listen] was called with, if it was called. *)
Definition listens (o : Outcome) : option Number :=
  match o with
  | Started _ _ port | Refused _ _ port _ _ => Some port
  | _ => None
  end.

(** The lines [main] logged before it called [app.listen]. *)
Definition notices (o : Outcome) : list LogLine :=
  match o with
  | Started _ logs _ | Refused _ logs _ _ _ => logs
  | _ => []
  end.

Definition env_of (l : list (string * string)) : Env := list_to_map l.

Definition hmac_env : Env :=
  env_of [("BUCKET_NAME", "videos"); ("ENDPOINT", "s3.example.net");
          ("AUTHENTICATION_TYPE", "hmac"); ("REGION", "us-south");
          ("SECRET_ACCESS_KEY", "s3cr3t"); ("ACCESS_KEY_ID", "AKID")].

Definition iam_env : Env :=
  env_of [("BUCKET_NAME", "videos"); ("ENDPOINT", "s3.example.net");
          ("AUTHENTICATION_TYPE", "iam"); ("API_KEY", "key");
          ("SERVICE_INSTANCE_ID", "crn:v1")].


(** ** Requests, responses and the storage client *)

Inductive Method :=
| GET
| HEAD
| POST
| OtherMethod (m : string).

(** An inbound request as Express presents it: [req.url] is the request
    target with its query string, [req.headers] has lower-cased names,
    [req.query] is the parsed query string, [body] is the content of the
    request stream. *)
Record Request := {
  method : Method;
  url : string;
  headers : gmap string string;
  query : gmap string string;
  body : list Byte.byte
}.

(** What a handler hands to [res.send] or [res.sendStatus]. *)
Inductive Payload :=
| Buffer (bytes : list Byte.byte)
| Json (fields : list (string * string))
| Html (text : string)
| StatusText (code : Z).

(** The response object [res]: its status code, the headers set on it
    with [res.set], as [res.set] stores them, and what was sent.  What
    [res.send] derives from the body on its own (the Content-Length of the
    body, a default Content-Type, an ETag) is not part of it. *)
Record Response := {
  statusCode : Z;
  header : gmap string string;
  payload : option Payload
}.

(** [res] as a handler receives it. *)
Definition fresh : Response :=
  {| statusCode := 200; header := ∅; payload := None |}.

(** The calls on the storage client, with the fields of their [params].
    The [Body] of [putObject] is [req.pipe(passThrough)]: the stream that
    carries the request's bytes. *)
Inductive Call :=
| getObject (Bucket Key : option string)
| putObject (Bucket Key ContentType ContentLength : option string)
    (Body : list Byte.byte).

(** The [data] of a fulfilled [getObject]. *)
Record GetObjectOutput := {
  ContentLength : Z;
  ContentType : string;
  Body : list Byte.byte
}.

(** How the promise of a call settles. *)
Inductive Settled (A : Type) :=
| Fulfilled (data : A)
| Rejected (err : JsError).

Arguments Fulfilled {A} data.
Arguments Rejected {A} err.

(** The storage behind [client]: how [getObject(..).promise()] and
    [putObject(..).promise()] settle for given [params]. *)
Record Client := {
  fetch : option string -> option string -> Settled GetObjectOutput;
  store : option string -> option string -> option string -> option string ->
          list Byte.byte -> Settled unit
}.

(** What a handler does, in order: log lines, calls on the client, and
    calls on [res]. *)
Inductive Effect :=
| Log (l : LogLine)
| Invoke (c : Call)
| SetHeader (field value : string)
| Status (code : Z)
| Send (p : Payload)
| SendStatus (code : Z).

(** [s] without the prefix [p], if it starts with it. *)
Fixpoint strip_prefix (p s : string) : option string :=
  match p, s with
  | EmptyString, _ => Some s
  | String a p', String b s' => if Ascii.eqb a b then strip_prefix p' s' else None
  | String _ _, EmptyString => None
  end.

(** The test [/;\s*charset\s*=/] of [res.set]. *)
Fixpoint has_charset (value : string) : bool :=
  match value with
  | EmptyString => false
  | String c rest =>
      (Ascii.eqb c ";" &&
       match strip_prefix "charset" (trimStart rest) with
       | Some after =>
           match trimStart after with
           | String e _ => Ascii.eqb e "="
           | EmptyString => false
           end
       | None => false
       end)
      || has_charset rest
  end.

(** [value.split(';')[0]]. *)
Fixpoint before_semicolon (value : string) : string :=
  match value with
  | EmptyString => EmptyString
  | String c rest =>
      if Ascii.eqb c ";" then EmptyString else String c (before_semicolon rest)
  end.

(** The media types [res.set] gives a charset to: those that match
    [/^text\/|^application\/(javascript|json)/]. *)
Definition default_charset (type : string) : bool :=
  String.prefix "text/" type
  || String.prefix "application/javascript" type
  || String.prefix "application/json" type.

(** The value [res.set(field, value)] stores (Express 4): a Content-Type
    without charset parameter gets [; charset=utf-8] appended when its
    media type has a default charset. *)
Definition res_set (field value : string) : string :=
  if String.eqb (toLowerCase field) "content-type" then
    if has_charset value then value
    else if default_charset (before_semicolon value) then value ++ "; charset=utf-8"
    else value
  else value.

(** The response after the calls on [res] among [effects]. *)
Fixpoint respond (effects : list Effect) (res : Response) : Response :=
  match effects with
  | [] => res
  | SetHeader f v :: rest =>
      respond rest {| statusCode := statusCode res;
                      header := <[f := res_set f v]> (header res);
                      payload := payload res |}
  | Status c :: rest =>
      respond rest {| statusCode := c; header := header res; payload := payload res |}
  | Send p :: rest =>
      respond rest {| statusCode := statusCode res; header := header res;
                      payload := Some p |}
  | SendStatus c :: rest =>
      respond rest {| statusCode := c; header := header res;
                      payload := Some (StatusText c) |}
  | _ :: rest => respond rest res
  end.

(** The lines logged among [effects]. *)
Fixpoint logged (effects : list Effect) : list LogLine :=
  match effects with
  | [] => []
  | Log l :: rest => l :: logged rest
  | _ :: rest => logged rest
  end.

(** The calls on the client among [effects]. *)
Fixpoint invoked (effects : list Effect) : list Call :=
  match effects with
  | [] => []
  | Invoke c :: rest => c :: invoked rest
  | _ :: rest => invoked rest
  end.

(** ** The routes *)

Section Routes.

Variable env : Env.
Variable client : Client.

(** [app.get('/readiness', ...)]. *)
Definition readiness (READINESS_PROBE : bool) (req : Request) : list Effect :=
  [ SendStatus (if Bool.eqb READINESS_PROBE true then 200 else 500) ].

(** [app.get("/video", ...)]. *)
Definition video (req : Request) : list Effect :=
  let cid := headers req !! "x-correlation-id" in
  let videoId := query req !! "id" in
  match videoId with
  | Some _ =>
      [ Log (log env info
               (Text ("Retrieving video from bucket: " ++ interp (getenv env BUCKET_NAME)
                      ++ ", key: " ++ interp videoId ++ ".")) cid);
        Invoke (getObject (getenv env BUCKET_NAME) videoId) ]
      ++
      match fetch client (getenv env BUCKET_NAME) videoId with
      | Fulfilled data =>
          [ Log (log env info
                   (Text ("Retrieved " ++ interp (getenv env BUCKET_NAME) ++ "/"
                          ++ interp videoId ++ " with size "
                          ++ show (Int (ContentLength data)) ++ ".")) cid);
            SetHeader "Content-Length" (show (Int (ContentLength data)));
            SetHeader "Content-Type" (ContentType data);
            Send (Buffer (Body data)) ]
      | Rejected err =>
          (if bool_decide (err_code err = Some "NoSuchKey") then
             [ Log (log env info
                      (Text (interp (getenv env BUCKET_NAME) ++ "/" ++ interp videoId
                             ++ " not found.")) cid) ]
           else
             [ Log (log env error
                      (Text ("Error while retrieving video "
                             ++ interp (getenv env BUCKET_NAME) ++ "/" ++ interp videoId
                             ++ " to stream.")) cid);
               Log (log env error (OfError err) cid);
               Log (log env error (StackOf err) cid) ])
          ++ [ SendStatus 500 ]
      end
  | None =>
      [ Log (log env info (Text "An id term must be provided.") cid);
        Send (Json [("error", "An 'id' term must be provided.")]) ]
  end.

(** [app.post('/upload', ...)]. *)
Definition upload (req : Request) : list Effect :=
  let videoId := headers req !! "id" in
  let mimeType := headers req !! "content-type" in
  let contentLength := headers req !! "content-length" in
  let cid := headers req !! "x-correlation-id" in
  [ Log (log env info
           (Text ("Uploading video to bucket: " ++ interp (getenv env BUCKET_NAME)
                  ++ ", key: " ++ interp videoId
                  ++ ", Content-Type: " ++ interp mimeType
                  ++ ", Content-Length: " ++ interp contentLength ++ ".")) cid);
    Invoke (putObject (getenv env BUCKET_NAME) videoId mimeType contentLength (body req)) ]
  ++
  match store client (getenv env BUCKET_NAME) videoId mimeType contentLength (body req) with
  | Fulfilled _ =>
      [ Log (log env info (Text ("Uploaded the video " ++ interp videoId ++ ".")) cid);
        SendStatus 200 ]
  | Rejected err =>
      [ Log (log env error
               (Text ("Upload to COS failed for video " ++ interp videoId ++ ".")) cid);
        Log (log env error (OfError err) cid);
        SendStatus 500 ]
  end.

(** [app.use((req, res, next) => ...)], the last middleware. *)
Definition fallback (req : Request) : list Effect :=
  [ Log (log env error
           (Text ("Unable to find the requested resource (" ++ url req ++ ")!"))
           (Some "-1"));
    Status 404;
    Send (Html ("<h1>Unable to find the requested resource (" ++ url req ++ ")!</h1>")) ].

(** The path of a request target in origin form ([/path?query]): what
    precedes the first [?].  Express's parser gives a target in absolute
    form, or one with a fragment, the path of the URL it denotes; these
    spellings are not recognised here, so [route] below recognises a
    registered route by its origin-form targets only. *)
Fixpoint pathname (target : string) : string :=
  match target with
  | EmptyString => EmptyString
  | String c rest => if Ascii.eqb c "?" then EmptyString else String c (pathname rest)
  end.

(** Express's default matching of a route path: letter case is ignored
    and one trailing slash is allowed. *)
Definition matches (route path : string) : bool :=
  let p := toLowerCase path in
  String.eqb p route || String.eqb p (route ++ "/").

(** A route registered with [app.get] also answers HEAD. *)
Definition reads (m : Method) : bool :=
  match m with
  | GET | HEAD => true
  | _ => false
  end.

Definition posts (m : Method) : bool :=
  match m with
  | POST => true
  | _ => false
  end.

Inductive Route := Readiness | Video | Upload | Fallback.

(** The first registered route that matches, in registration order. *)
Definition route (req : Request) : Route :=
  let path := pathname (url req) in
  if reads (method req) && matches "/readiness" path then Readiness
  else if reads (method req) && matches "/video" path then Video
  else if posts (method req) && matches "/upload" path then Upload
  else Fallback.

(** The application on one request, given the current value of the
    readiness flag. *)
Definition app_handle (READINESS_PROBE : bool) (req : Request) : list Effect :=
  match route req with
  | Readiness => readiness READINESS_PROBE req
  | Video => video req
  | Upload => upload req
  | Fallback => fallback req
  end.

(** ** The process *)

(** The mutable state of the process once [main()] has returned its
    promise: the flag [READINESS_PROBE], whether that promise is settled,
    and everything logged so far. *)
Record Process := {
  READINESS_PROBE : bool;
  settled : bool;
  journal : list LogLine
}.

(** What happens to the process: the callback of [app.listen] is invoked
    (the HTTP server is listening), or a request comes in. *)
Inductive Event :=
| Listening
| Incoming (req : Request).

(** The [.then] callback of [main()]. *)
Definition on_listening (p : Process) : Process :=
  {| READINESS_PROBE := true;
     settled := true;
     journal := journal p ++
       [ log env info
           (Text ("Microservice is listening on port " ++ show (PORT env) ++ "!"))
           (Some "-1") ] |}.

(** One event.  [resolve()] on a settled promise does nothing; a request
    is answered by the application and its log lines are appended. *)
Definition step (p : Process) (ev : Event) : Process * option Response :=
  match ev with
  | Listening => (if settled p then p else on_listening p, None)
  | Incoming req =>
      let effects := app_handle (READINESS_PROBE p) req in
      ({| READINESS_PROBE := READINESS_PROBE p;
          settled := settled p;
          journal := journal p ++ logged effects |},
       Some (respond effects fresh))
  end.

(** The process after a sequence of events. *)
Definition run (p : Process) (events : list Event) : Process :=
  fold_left (fun q ev => fst (step q ev)) events p.

(** [let READINESS_PROBE = false], before [main()] is called. *)
Definition boot (logs : list LogLine) : Process :=
  {| READINESS_PROBE := false; settled := false; journal := logs |}.

Definition is_listening (ev : Event) : bool :=
  match ev with
  | Listening => true
  | Incoming _ => false
  end.

End Routes.

(** The flag is set exactly when the promise of [main()] is settled. *)
Definition coherent (p : Process) : Prop := READINESS_PROBE p = settled p.

(** ** Sample environments and requests *)

(** The settings [main] checks for a selector [a], in the order it checks
    them. *)
Definition required (a : string) : list Setting :=
  BUCKET_NAME :: ENDPOINT :: AUTHENTICATION_TYPE ::
  (if String.eqb (toLowerCase a) "hmac" then [REGION; SECRET_ACCESS_KEY; ACCESS_KEY_ID]
   else if String.eqb (toLowerCase a) "iam" then [API_KEY; SERVICE_INSTANCE_ID]
   else []).

(** The selector names one of the two authentication modes. *)
Definition known (a : string) : bool :=
  String.eqb (toLowerCase a) "hmac" || String.eqb (toLowerCase a) "iam".

(** The setting is absent or empty. *)
Definition unset (env : Env) (v : Setting) : bool := negb (present (getenv env v)).

(** A complete hmac environment whose selector is written in capitals. *)
Definition capitals_env : Env := <["AUTHENTICATION_TYPE" := "HMAC"]> hmac_env.

(** An unrecognised selector and no bucket name, with the credentials of
    the shape [CONFIG] falls back to. *)
Definition basic_env : Env :=
  delete "BUCKET_NAME" (<["AUTHENTICATION_TYPE" := "basic"]> iam_env).

(** The error of [app.listen] for a port it does not accept. *)
Definition BadPort : JsError :=
  {| err_name := "RangeError"; err_code := Some "ERR_SOCKET_BAD_PORT";
     err_message := "options.port should be >= 0 and < 65536." |}.

(** A platform whose [app.listen] accepts the ports from 0 to 65535 only. *)
Definition ranged : Platform :=
  {| new_S3 := fun _ => None;
     app_listen := fun port =>
       match port with
       | Int z => if (0 <=? z) && (z <? 65536) then None else Some BadPort
       | _ => Some BadPort
       end |}.

(** [PORT] is set to a number no port has. *)
Definition port_70000_env : Env := <["PORT" := "70000"]> hmac_env.

(** [PORT] is set to something that is not a number. *)
Definition garbled_port_env : Env := <["PORT" := "http"]> hmac_env.

(** [PORT] is set to a port number. *)
Definition port_8080_env : Env := <["PORT" := "8080"]> iam_env.

(** [PORT] is set to zero. *)
Definition zero_port_env : Env := <["PORT" := "0"]> hmac_env.

(** A stored object and a storage that has it under the key clip, lacks
    every other key, and accepts every upload. *)
Definition clip : GetObjectOutput :=
  {| ContentLength := 3; ContentType := "video/mp4";
     Body := [Byte.x00; Byte.x01; Byte.x02] |}.

Definition NoSuchKey : JsError :=
  {| err_name := "NoSuchKey"; err_code := Some "NoSuchKey";
     err_message := "The specified key does not exist." |}.

Definition AccessDenied : JsError :=
  {| err_name := "AccessDenied"; err_code := Some "AccessDenied";
     err_message := "Access Denied" |}.


(** A storage that answers every fetch with the same object and accepts
    every upload. *)
Definition serving (data : GetObjectOutput) : Client :=
  {| fetch := fun _ _ => Fulfilled data;
     store := fun _ _ _ _ _ => Fulfilled tt |}.

Definition one_clip : Client :=
  {| fetch := fun _ key =>
       if bool_decide (key = Some "clip") then Fulfilled clip else Rejected NoSuchKey;
     store := fun _ _ _ _ _ => Fulfilled tt |}.

(** A storage that refuses every call. *)
Definition locked : Client :=
  {| fetch := fun _ _ => Rejected AccessDenied;
     store := fun _ _ _ _ _ => Rejected AccessDenied |}.

Definition request (m : Method) (target : string)
    (hs qs : list (string * string)) (content : list Byte.byte) : Request :=
  {| method := m; url := target; headers := list_to_map hs; query := list_to_map qs;
     body := content |}.

Definition get_clip : Request :=
  request GET "/video?id=clip" [("x-correlation-id", "r-17")] [("id", "clip")] [].

Definition get_gone : Request :=
  request GET "/video?id=gone" [("x-correlation-id", "r-18")] [("id", "gone")] [].

Definition get_no_id : Request :=
  request GET "/video" [("x-correlation-id", "r-19")] [] [].

Definition post_foo : Request :=
  request POST "/upload"
    [("id", "foo"); ("content-type", "video/mp4"); ("content-length", "3");
     ("x-correlation-id", "r-20")] [] [Byte.x00; Byte.x01; Byte.x02].


Definition get_unknown : Request :=
  request GET "/unknown" [("x-correlation-id", "r-21")] [] [].

Definition get_readiness : Request :=
  request GET "/readiness" [] [] [].

(** ** The listing helper *)

(** [getListOfFiles(prefix)] pages through [listObjectsV2].  No route calls
    it.  Its body names the storage client [CLIENT]; the script declares
    [client]. *)

(** The error of reading an identifier that is not bound. *)
Definition ReferenceError (id : string) : JsError :=
  {| err_name := "ReferenceError"; err_code := None;
     err_message := id ++ " is not defined" |}.

(** The [params] of [listObjectsV2]. *)
Record ListParams := {
  list_Bucket : option string;
  MaxKeys : Z;
  Prefix : string;
  Delimiter : string;
  ContinuationToken : option string
}.

(** The [data] of a successful [listObjectsV2]: the keys of [Contents],
    [IsTruncated] and [NextContinuationToken]. *)
Record ListOutput := {
  Contents : list string;
  IsTruncated : bool;
  NextContinuationToken : option string
}.

(** A storage client as [listObjectsV2] sees it: the [(err, data)] its
    callback receives for given [params]. *)
Definition Lister : Type := ListParams -> JsError + ListOutput.

(** The storage client an identifier denotes in the script, if any: the
    only binding of one is [const client = new cos.S3(CONFIG)]. *)
Definition module_scope (client : Lister) (id : string) : option Lister :=
  if String.eqb id "client" then Some client else None.

(** What became of the promise, the calls made on the storage, and the
    errors written with [console.log]. *)
Record Listing := {
  promise : Settled (list string);
  requests : list ListParams;
  console : list JsError
}.

(** [listAllKeys()], for a given meaning of identifiers.  [fuel] bounds the
    number of further pages; [None] when it runs out. *)
Fixpoint listAllKeys (scope : string -> option Lister) (fuel : nat)
    (params : ListParams) (allKeys : list string) : option Listing :=
  match scope "CLIENT" with
  | None =>
      Some {| promise := Rejected (ReferenceError "CLIENT"); requests := []; console := [] |}
  | Some CLIENT =>
      match CLIENT params with
      | inl err =>
          Some {| promise := Rejected err; requests := [params]; console := [err] |}
      | inr data =>
          let allKeys := (allKeys ++ Contents data)%list in
          if IsTruncated data then
            match fuel with
            | O => None
            | S fuel' =>
                let params' :=
                  {| list_Bucket := list_Bucket params; MaxKeys := MaxKeys params;
                     Prefix := Prefix params; Delimiter := Delimiter params;
                     ContinuationToken := NextContinuationToken data |} in
                match listAllKeys scope fuel' params' allKeys with
                | None => None
                | Some l =>
                    Some {| promise := promise l; requests := params :: requests l;
                            console := console l |}
                end
            end
          else
            Some {| promise := Fulfilled allKeys; requests := [params]; console := [] |}
      end
  end.

(** [getListOfFiles(prefix)]. *)
Definition getListOfFiles (scope : string -> option Lister) (env : Env) (fuel : nat)
    (prefix : string) : option Listing :=
  let params :=
    {| list_Bucket := getenv env BUCKET_NAME; MaxKeys := 1000; Prefix := prefix;
       Delimiter := prefix; ContinuationToken := None |} in
  listAllKeys scope fuel params [].

(** ** Notions used to state further properties *)


(** The calls on [res] that send the response. *)
Definition sent (e : Effect) : bool :=
  match e with
  | Send _ | SendStatus _ => true
  | _ => false
  end.

(** The last thing the handler does is send the response, and it sends
    nothing before. *)
Definition answers_at_end (effects : list Effect) : bool :=
  match rev effects with
  | [] => false
  | e :: before => sent e && forallb (fun x => negb (sent x)) before
  end.

Definition bucket_of (c : Call) : option string :=
  match c with
  | getObject Bucket _ => Bucket
  | putObject Bucket _ _ _ _ => Bucket
  end.

Definition is_read (c : Call) : bool :=
  match c with
  | getObject _ _ => true
  | putObject _ _ _ _ _ => false
  end.

(** The line carries the application and service names of the
    environment. *)
Definition tagged (env : Env) (l : LogLine) : Prop :=
  app l = getenv env APP_NAME_VER /\ service l = getenv env SVC_NAME.

(** A storage whose listing has two pages. *)
Definition two_pages : Lister :=
  fun params =>
    match ContinuationToken params with
    | None =>
        inr {| Contents := ["a"; "b"]; IsTruncated := true;
               NextContinuationToken := Some "next" |}
    | Some _ =>
        inr {| Contents := ["c"]; IsTruncated := false; NextContinuationToken := None |}
    end.

(** A request with a method no route is registered for. *)
Definition put_video : Request :=
  request (OtherMethod "PUT") "/video?id=clip" [] [("id", "clip")] [Byte.x00].

(** An environment without the selector. *)
Definition no_selector_env : Env := delete "AUTHENTICATION_TYPE" hmac_env.

(** An hmac environment without the region. *)
Definition no_region_env : Env := delete "REGION" hmac_env.


(** ** Start-up: theorems *)

Example parseInt_8080 : parseInt "8080" = Int 8080.
Proof. reflexivity. Qed.

Example parseInt_trailing : parseInt "  +80Kb" = Int 80.
Proof. reflexivity. Qed.

Example parseInt_hex : parseInt "0x1F" = Int 31.
Proof. reflexivity. Qed.

Example parseInt_none : parseInt "port" = NaN /\ parseInt "" = NaN /\ parseInt "0x" = NaN.
Proof. repeat split; reflexivity. Qed.

Example show_3000 : show (Int 3000) = "3000" /\ show (Int 0) = "0".
Proof. split; reflexivity. Qed.

Example start_hmac : listens (start ranged hmac_env) = Some (Int 3000).
Proof. vm_compute. reflexivity. Qed.

Example start_iam_port : listens (start ranged port_8080_env) = Some (Int 8080).
Proof. vm_compute. reflexivity. Qed.

Example start_no_region :
  failure (start ranged (delete "REGION" hmac_env)) = Some (Error (missing REGION)).
Proof. vm_compute. reflexivity. Qed.

Example start_bad_port :
  failure (start ranged port_70000_env) = Some BadPort.
Proof. vm_compute. reflexivity. Qed.

Example parseInt_rounds : parseInt "9007199254740993" = Int 9007199254740992.
Proof. vm_compute. reflexivity. Qed.

Example show_large :
  show (Int (2 ^ 64)) = "18446744073709552000" /\ show (Int (10 ^ 21)) = "1e+21".
Proof. split; vm_compute; reflexivity. Qed.

(** The message for a setting [main] requires names that setting's
    environment variable. *)
Lemma missing_names_setting (a : string) (v : Setting) :
  In v (required a) -> String.index 0 (name v) (missing v) <> None.
Proof.
  unfold required. intros Hin.
  destruct (String.eqb (toLowerCase a) "hmac");
    [| destruct (String.eqb (toLowerCase a) "iam")];
    cbn [In] in Hin; intuition subst; vm_compute; discriminate.
Qed.

(** With the selector absent, the script dies on [CONFIG], before [main]
    is called and before any handler is installed. *)
Lemma start_without_selector (P : Platform) (env : Env) :
  getenv env AUTHENTICATION_TYPE = None ->
  start P env = Crashed (TypeError "toLowerCase").
Proof.
  intros H. unfold start, CONFIG. rewrite H. reflexivity.
Qed.

(** [main] never reaches the method call on an absent selector. *)
Lemma validate_never_TypeError (env : Env) :
  validate env <> inl (TypeError "toLowerCase").
Proof.
  unfold validate.
  destruct (present (getenv env BUCKET_NAME)); [| discriminate].
  destruct (present (getenv env ENDPOINT)); [| discriminate].
  destruct (getenv env AUTHENTICATION_TYPE) as [a |] eqn:Ha; [| discriminate].
  destruct (present (Some a)); [| discriminate].
  cbn [negb call_toLowerCase bind ret].
  destruct (String.eqb (toLowerCase a) "hmac").
  - destruct (present (getenv env REGION)); [| discriminate].
    destruct (present (getenv env SECRET_ACCESS_KEY)); [| discriminate].
    destruct (present (getenv env ACCESS_KEY_ID)); discriminate.
  - destruct (String.eqb (toLowerCase a) "iam"); [| discriminate].
    destruct (present (getenv env API_KEY)); [| discriminate].
    destruct (present (getenv env SERVICE_INSTANCE_ID)); discriminate.
Qed.

(** What [validate] does, by the first required setting that is unset. *)
Lemma validate_first_unset (env : Env) (a : string) :
  getenv env AUTHENTICATION_TYPE = Some a ->
  validate env =
    match find (unset env) (required a) with
    | Some v => inl (Error (missing v))
    | None => if known a then inr tt else inl (Error (unknown_type (Some a)))
    end.
Proof.
  intros Ha. unfold validate, required, known, unset. rewrite Ha.
  cbn [find].
  destruct (present (getenv env BUCKET_NAME)); cbn [negb]; [| reflexivity].
  destruct (present (getenv env ENDPOINT)); cbn [negb]; [| reflexivity].
  rewrite Ha.
  destruct (present (Some a)); cbn [negb]; [| reflexivity].
  cbn [call_toLowerCase bind ret].
  destruct (String.eqb (toLowerCase a) "hmac"); cbn [orb find].
  - destruct (present (getenv env REGION)); cbn [negb]; [| reflexivity].
    destruct (present (getenv env SECRET_ACCESS_KEY)); cbn [negb]; [| reflexivity].
    destruct (present (getenv env ACCESS_KEY_ID)); reflexivity.
  - destruct (String.eqb (toLowerCase a) "iam"); cbn [find]; [| reflexivity].
    destruct (present (getenv env API_KEY)); cbn [negb]; [| reflexivity].
    destruct (present (getenv env SERVICE_INSTANCE_ID)); reflexivity.
Qed.

(** C1, as the program has it.  When AUTHENTICATION_TYPE is set (possibly
    to the empty string): if [new cos.S3(CONFIG)] throws, the script dies
    of that error before [main] runs.  Otherwise start-up checks
    BUCKET_NAME, ENDPOINT, AUTHENTICATION_TYPE and then the settings of
    the mode (hmac: REGION, SECRET_ACCESS_KEY, ACCESS_KEY_ID; iam:
    API_KEY, SERVICE_INSTANCE_ID) in this order, the mode being the
    selector in lower case and a setting counting as missing when it is
    absent or empty.  It fails with the error that names the first
    missing one and does not call [app.listen]; with none missing it
    fails with the unknown-authentication-type error when the mode is
    neither hmac nor iam, again without calling [app.listen]; and
    otherwise [main] throws nothing and calls [app.listen] with the
    resolved port, so that start-up fails from there on only if
    [app.listen] itself throws. *)
Theorem startup_validation (P : Platform) (env : Env) (a : string) :
  getenv env AUTHENTICATION_TYPE = Some a ->
  match client_error P env with
  | Some e => start P env = Crashed e /\ listens (start P env) = None
  | None =>
      match find (unset env) (required a) with
      | Some v =>
          failure (start P env) = Some (Error (missing v)) /\
          listens (start P env) = None
      | None =>
          if known a
          then listens (start P env) = Some (PORT env) /\
               failure (start P env) = app_listen P (PORT env)
          else failure (start P env) = Some (Error (unknown_type (Some a))) /\
               listens (start P env) = None
      end
  end.
Proof.
  intros Ha. unfold client_error, start, CONFIG, main.
  rewrite (validate_first_unset env a Ha), Ha.
  cbn [call_toLowerCase bind ret].
  destruct (new_S3 P _) as [e |]; [split; reflexivity |].
  destruct (find (unset env) (required a)) as [v |]; cbn [bind failure listens].
  - split; reflexivity.
  - destruct (known a); cbn [bind ret failure listens]; [| split; reflexivity].
    destruct (app_listen P (PORT env)); split; reflexivity.
Qed.

(** A complete hmac environment whose selector is written HMAC gets as
    far as [app.listen], which accepts port 3000. *)
Lemma startup_validation_witness :
  getenv capitals_env AUTHENTICATION_TYPE = Some "HMAC" /\
  listens (start ranged capitals_env) = Some (PORT capitals_env) /\
  failure (start ranged capitals_env) = app_listen ranged (PORT capitals_env).
Proof.
  split; [vm_compute; reflexivity |].
  vm_cast_no_check
    (startup_validation ranged capitals_env "HMAC" ltac:(vm_compute; reflexivity)).
Defined.

(** C1, counterexamples.  A complete hmac environment whose selector is
    spelled HMAC, which is neither the string hmac nor the string iam,
    starts; and an environment with the unrecognised selector basic and
    without bucket name fails with the error about BUCKET_NAME, not with
    the one about the authentication type. *)
Lemma startup_validation_counterexample :
  (getenv capitals_env AUTHENTICATION_TYPE = Some "HMAC" /\
   "HMAC" <> "hmac" /\ "HMAC" <> "iam" /\
   failure (start ranged capitals_env) = None /\
   listens (start ranged capitals_env) = Some (Int 3000))
  /\
  (getenv basic_env AUTHENTICATION_TYPE = Some "basic" /\
   toLowerCase "basic" <> "hmac" /\ toLowerCase "basic" <> "iam" /\
   failure (start ranged basic_env) = Some (Error (missing BUCKET_NAME)) /\
   failure (start ranged basic_env) <> Some (Error (unknown_type (Some "basic")))).
Proof.
  split; [split; [| split; [| split; [| split]]] | split; [| split; [| split; [| split]]]];
    first [ vm_compute; reflexivity | vm_compute; discriminate ].
Qed.

(** C8, as the program has it.  Whenever start-up gets as far as calling
    [app.listen]: it calls it with the resolved port, and it fails from
    there on exactly if that call throws.  When PORT is absent the port
    is 3000 and [main] logs one notice at level info; when PORT is set
    nothing is logged about it, and the port is parseInt(PORT), a double,
    if that is neither NaN nor zero, and 3000 otherwise. *)
Theorem port_resolution (P : Platform) (env : Env) :
  listens (start P env) <> None ->
  listens (start P env) = Some (PORT env) /\
  failure (start P env) = app_listen P (PORT env) /\
  match env !! "PORT" with
  | None =>
      PORT env = Int 3000 /\
      notices (start P env) =
        [ log env info
            (Text "The environment variable PORT for the HTTP server is missing; using port 3000.")
            (Some "-1") ]
  | Some s =>
      PORT env = (if truthy (parseInt s) then parseInt s else Int 3000) /\
      notices (start P env) = []
  end.
Proof.
  unfold start, main.
  destruct (CONFIG env) as [e | cfg]; [intros H; contradiction H; reflexivity |].
  destruct (new_S3 P cfg) as [e |]; [intros H; contradiction H; reflexivity |].
  destruct (validate env) as [e | []]; [intros H; contradiction H; reflexivity |].
  intros _. cbn [bind ret].
  assert (Hport :
    match env !! "PORT" with
    | None => PORT env = Int 3000
    | Some s => PORT env = (if truthy (parseInt s) then parseInt s else Int 3000)
    end).
  { unfold PORT. destruct (env !! "PORT") as [s |]; [| reflexivity].
    destruct (String.eqb_spec s "") as [-> | _]; reflexivity. }
  destruct (app_listen P (PORT env)) as [e |] eqn:Hl; cbn [listens failure notices];
    (split; [reflexivity |]; split; [reflexivity |]);
    unfold port_notice; destruct (env !! "PORT") as [s |];
    (split; [exact Hport |]); try reflexivity;
    rewrite Hport; reflexivity.
Qed.

(** A complete iam environment with PORT set to 8080, where [app.listen]
    accepts the port, and a complete hmac environment with PORT set to
    70000, where it throws. *)
Lemma port_resolution_witness :
  (listens (start ranged port_8080_env) = Some (Int 8080) /\
   failure (start ranged port_8080_env) = None /\
   notices (start ranged port_8080_env) = [])
  /\
  (listens (start ranged port_70000_env) = Some (Int 70000) /\
   failure (start ranged port_70000_env) = Some BadPort).
Proof.
  pose proof (port_resolution ranged port_8080_env ltac:(vm_compute; discriminate))
    as [H1 [H2 H3]].
  pose proof (port_resolution ranged port_70000_env ltac:(vm_compute; discriminate))
    as [H4 [H5 _]].
  split; [split; [| split] | split].
  - vm_cast_no_check H1.
  - vm_cast_no_check H2.
  - vm_compute. reflexivity.
  - vm_cast_no_check H4.
  - vm_cast_no_check H5.
Defined.

(** C8, counterexamples.  With PORT set to a text that is not a number
    [app.listen] is called with 3000 and no notice is logged; with PORT
    set to 0, which parses as the integer zero, it is called with 3000. *)
Lemma port_resolution_counterexample :
  (garbled_port_env !! "PORT" = Some "http" /\ parseInt "http" = NaN /\
   listens (start ranged garbled_port_env) = Some (Int 3000) /\
   notices (start ranged garbled_port_env) = [])
  /\
  (zero_port_env !! "PORT" = Some "0" /\ parseInt "0" = Int 0 /\
   listens (start ranged zero_port_env) = Some (Int 3000)).
Proof.
  split; [split; [| split; [| split]] | split; [| split]]; vm_compute; reflexivity.
Qed.

(** ** The routes: theorems *)

Section RouteFacts.

Variable env : Env.
Variable client : Client.

Lemma route_video (req : Request) :
  method req = GET -> pathname (url req) = "/video" -> route req = Video.
Proof. intros Hm Hp. unfold route. rewrite Hm, Hp. reflexivity. Qed.


Lemma route_readiness (req : Request) :
  method req = GET -> pathname (url req) = "/readiness" -> route req = Readiness.
Proof. intros Hm Hp. unfold route. rewrite Hm, Hp. reflexivity. Qed.

(** Every line the download route logs carries the request's correlation
    identifier. *)
Lemma video_logs_carry_cid (req : Request) :
  Forall (fun l => requestId l = headers req !! "x-correlation-id")
         (logged (video env client req)).
Proof.
  unfold video.
  destruct (query req !! "id") as [key |].
  - destruct (fetch client (getenv env BUCKET_NAME) (Some key)) as [data | err].
    + cbn [List.app logged]. repeat constructor.
    + destruct (bool_decide (err_code err = Some "NoSuchKey"));
        cbn [List.app logged]; repeat constructor.
  - cbn [logged]. repeat constructor.
Qed.

(** So does every line the upload route logs. *)
Lemma upload_logs_carry_cid (req : Request) :
  Forall (fun l => requestId l = headers req !! "x-correlation-id")
         (logged (upload env client req)).
Proof.
  unfold upload.
  destruct (store client _ _ _ _ _) as [u | err];
    cbn [List.app logged]; repeat constructor.
Qed.

(** The readiness route logs nothing. *)
Lemma readiness_logs_nothing (flag : bool) (req : Request) :
  logged (readiness flag req) = [].
Proof. reflexivity. Qed.

End RouteFacts.

(** Enter the handler of the route a request is dispatched to. *)
Ltac on_route route_lemma := unfold app_handle; rewrite route_lemma by assumption.








(** C4.  For a request GET /video without id in its query, the response
    has status 200 and the body { error: "An 'id' term must be provided." },
    and no call is made on the storage. *)
Theorem download_without_id (env : Env) (client : Client) (flag : bool)
    (req : Request) :
  method req = GET ->
  pathname (url req) = "/video" ->
  query req !! "id" = None ->
  let effects := app_handle env client flag req in
  statusCode (respond effects fresh) = 200 /\
  payload (respond effects fresh) =
    Some (Json [("error", "An 'id' term must be provided.")]) /\
  invoked effects = [].
Proof.
  intros Hm Hp Hq. on_route route_video. unfold video. rewrite Hq.
  repeat split.
Qed.

(** A request for /video with an empty query. *)
Lemma download_without_id_witness :
  let effects := app_handle hmac_env one_clip true get_no_id in
  statusCode (respond effects fresh) = 200 /\
  payload (respond effects fresh) =
    Some (Json [("error", "An 'id' term must be provided.")]) /\
  invoked effects = [].
Proof.
  exact (download_without_id hmac_env one_clip true get_no_id
           eq_refl eq_refl ltac:(vm_compute; reflexivity)).
Defined.

(** C5.  For a request GET /video?id=key whose fetch is rejected, the
    response is the same whatever the error: status 500.  When the error
    is the storage's NoSuchKey, every line logged is at level info and the
    not-found line is among them; for any other error the error object and
    its stack are logged at level error. *)
Theorem download_failure (env : Env) (client : Client) (flag : bool)
    (req : Request) (key : string) (err : JsError) :
  method req = GET ->
  pathname (url req) = "/video" ->
  query req !! "id" = Some key ->
  fetch client (getenv env BUCKET_NAME) (Some key) = Rejected err ->
  let effects := app_handle env client flag req in
  let cid := headers req !! "x-correlation-id" in
  respond effects fresh =
    {| statusCode := 500; header := ∅; payload := Some (StatusText 500) |} /\
  (err_code err = Some "NoSuchKey" ->
     Forall (fun l => level l = info) (logged effects) /\
     In (log env info
           (Text (interp (getenv env BUCKET_NAME) ++ "/" ++ key ++ " not found.")) cid)
        (logged effects)) /\
  (err_code err <> Some "NoSuchKey" ->
     In (log env error
           (Text ("Error while retrieving video " ++ interp (getenv env BUCKET_NAME)
                  ++ "/" ++ key ++ " to stream.")) cid)
        (logged effects) /\
     In (log env error (OfError err) cid) (logged effects) /\
     In (log env error (StackOf err) cid) (logged effects)).
Proof.
  intros Hm Hp Hq Hf. on_route route_video. unfold video. rewrite Hq, Hf.
  cbv zeta. split; [| split].
  - destruct (bool_decide (err_code err = Some "NoSuchKey")); reflexivity.
  - intros Hcode. rewrite (bool_decide_eq_true_2 _ Hcode).
    cbn [List.app logged interp]. split.
    + repeat constructor.
    + right; left; reflexivity.
  - intros Hcode. rewrite (bool_decide_eq_false_2 _ Hcode).
    cbn [List.app logged interp].
    split; [right; left; reflexivity |].
    split; [right; right; left; reflexivity | right; right; right; left; reflexivity].
Qed.

(** A key the storage lacks, and a storage that denies access. *)
Lemma download_failure_witness :
  respond (app_handle hmac_env one_clip true get_gone) fresh =
    {| statusCode := 500; header := ∅; payload := Some (StatusText 500) |} /\
  respond (app_handle hmac_env locked true get_gone) fresh =
    {| statusCode := 500; header := ∅; payload := Some (StatusText 500) |} /\
  Forall (fun l => level l = info) (logged (app_handle hmac_env one_clip true get_gone)) /\
  In (log hmac_env error (OfError AccessDenied) (Some "r-18"))
     (logged (app_handle hmac_env locked true get_gone)).
Proof.
  pose proof (download_failure hmac_env one_clip true get_gone "gone" NoSuchKey
                eq_refl eq_refl ltac:(vm_compute; reflexivity)
                ltac:(vm_compute; reflexivity)) as [Hres [Hinfo _]].
  pose proof (download_failure hmac_env locked true get_gone "gone" AccessDenied
                eq_refl eq_refl ltac:(vm_compute; reflexivity)
                ltac:(vm_compute; reflexivity)) as [Hres' [_ Herror]].
  split; [exact Hres |]. split; [exact Hres' |].
  split; [exact (proj1 (Hinfo eq_refl)) |].
  assert (Hne : err_code AccessDenied <> Some "NoSuchKey") by discriminate.
  destruct (Herror Hne) as [_ [Hobj _]].
  vm_cast_no_check Hobj.
Defined.

(** C7, at a request the program mishandles.  For the request
    GET /video?id=clip and a storage that answers with any object, the
    handler sends nothing before the call of the storage has settled with
    the whole object, and then sends once: one buffer that holds all
    bytes of the object. *)
Theorem download_buffers_whole_body (env : Env) (flag : bool)
    (data : GetObjectOutput) :
  let effects := app_handle env (serving data) flag get_clip in
  filter (fun e => sent e = true) effects = [ Send (Buffer (Body data)) ] /\
  exists before,
    effects = (before ++ [ Send (Buffer (Body data)) ])%list /\
    In (Invoke (getObject (getenv env BUCKET_NAME) (Some "clip"))) before /\
    forallb (fun e => negb (sent e)) before = true.
Proof.
  assert (Hr : route get_clip = Video) by (vm_compute; reflexivity).
  assert (Hq : query get_clip !! "id" = Some "clip") by (vm_compute; reflexivity).
  cbv zeta. unfold app_handle. rewrite Hr. unfold video. rewrite Hq.
  cbn [serving fetch List.app].
  split; [reflexivity |].
  eexists [_; _; _; _; _]. split; [reflexivity |].
  split; [right; left; reflexivity | reflexivity].
Qed.

(** C9, at a request the program mishandles.  A request for /unknown that
    carries the correlation identifier r-21 reaches the fallback route,
    whose only log line has the request identifier -1, not r-21. *)
Theorem fallback_ignores_correlation_id (env : Env) (client : Client) (flag : bool) :
  headers get_unknown !! "x-correlation-id" = Some "r-21" /\
  route get_unknown = Fallback /\
  logged (app_handle env client flag get_unknown) =
    [ log env error (Text "Unable to find the requested resource (/unknown)!")
        (Some "-1") ] /\
  map requestId (logged (app_handle env client flag get_unknown)) = [Some "-1"].
Proof.
  split; [vm_compute; reflexivity |].
  assert (Hr : route get_unknown = Fallback) by (vm_compute; reflexivity).
  split; [exact Hr |].
  unfold app_handle. rewrite Hr. split; reflexivity.
Qed.



(** ** The readiness flag: theorems *)

Section ProcessFacts.

Variable env : Env.
Variable client : Client.

Lemma boot_coherent (logs : list LogLine) : coherent (boot logs).
Proof. reflexivity. Qed.

Lemma step_coherent (p : Process) (ev : Event) :
  coherent p -> coherent (fst (step env client p ev)).
Proof.
  unfold coherent. intros H. destruct ev as [| req]; cbn [step fst].
  - destruct (settled p) eqn:Hs; [congruence | reflexivity].
  - exact H.
Qed.

Lemma step_flag (p : Process) (ev : Event) :
  coherent p ->
  READINESS_PROBE (fst (step env client p ev)) = READINESS_PROBE p || is_listening ev.
Proof.
  unfold coherent. intros H. destruct ev as [| req]; cbn [step fst is_listening].
  - destruct (settled p); [rewrite H; reflexivity |].
    cbn [on_listening READINESS_PROBE]. symmetry. apply orb_true_r.
  - cbn [READINESS_PROBE]. symmetry. apply orb_false_r.
Qed.

Lemma run_flag (events : list Event) :
  forall p, coherent p ->
    coherent (run env client p events) /\
    READINESS_PROBE (run env client p events)
      = READINESS_PROBE p || existsb is_listening events.
Proof.
  induction events as [| ev events IH]; intros p Hp.
  - split; [exact Hp |]. cbn [run fold_left existsb]. symmetry. apply orb_false_r.
  - change (run env client p (ev :: events))
      with (run env client (fst (step env client p ev)) events).
    destruct (IH _ (step_coherent p ev Hp)) as [Hc Hf].
    split; [exact Hc |].
    rewrite Hf, (step_flag p ev Hp). cbn [existsb]. symmetry. apply orb_assoc.
Qed.

Lemma run_app (p : Process) (events more : list Event) :
  run env client p (events ++ more) = run env client (run env client p events) more.
Proof. unfold run. apply fold_left_app. Qed.

End ProcessFacts.

(** C6.  After any sequence of events from the start of the process, the
    readiness flag is true exactly when the callback of [app.listen] has
    been invoked: it is false until then and true from then on.  A request
    on the readiness route is answered 200 when the flag is true and 500
    when it is false.  The flag never goes back to false, and the only
    event that changes it is the first invocation of that callback, which
    sets it to true. *)
Theorem readiness_flag (env : Env) (client : Client) (logs : list LogLine)
    (events : list Event) :
  let p := run env client (boot logs) events in
  let code : Z := if existsb is_listening events then 200 else 500 in
  READINESS_PROBE p = existsb is_listening events /\
  (forall req, route req = Readiness ->
     snd (step env client p (Incoming req)) =
       Some {| statusCode := code; header := ∅; payload := Some (StatusText code) |}) /\
  (forall more, READINESS_PROBE p = true ->
     READINESS_PROBE (run env client p more) = true) /\
  (forall ev,
     READINESS_PROBE (fst (step env client p ev)) <> READINESS_PROBE p ->
     ev = Listening /\ existsb is_listening events = false /\
     READINESS_PROBE (fst (step env client p ev)) = true).
Proof.
  cbv zeta.
  destruct (run_flag env client events (boot logs) (boot_coherent logs)) as [Hc Hf].
  cbn [boot READINESS_PROBE orb] in Hf.
  split; [exact Hf |]. split; [| split].
  - intros req Hr. cbn [step snd]. unfold app_handle. rewrite Hr, Hf.
    unfold readiness. destruct (existsb is_listening events); reflexivity.
  - intros more Ht.
    destruct (run_flag env client more _ Hc) as [_ Hm].
    rewrite Hm, Ht. reflexivity.
  - intros ev Hchange. rewrite (step_flag env client _ ev Hc) in *.
    rewrite Hf in *.
    destruct ev as [| req]; cbn [is_listening] in *.
    + destruct (existsb is_listening events); [contradiction Hchange; reflexivity |].
      repeat split.
    + rewrite orb_false_r in Hchange. contradiction Hchange; reflexivity.
Qed.

(** A readiness request before and after the server is listening. *)
Lemma readiness_flag_witness :
  snd (step hmac_env one_clip (run hmac_env one_clip (boot []) [Incoming get_clip])
         (Incoming get_readiness)) =
    Some {| statusCode := 500; header := ∅; payload := Some (StatusText 500) |} /\
  snd (step hmac_env one_clip
         (run hmac_env one_clip (boot []) [Incoming get_clip; Listening; Incoming get_unknown])
         (Incoming get_readiness)) =
    Some {| statusCode := 200; header := ∅; payload := Some (StatusText 200) |}.
Proof.
  assert (Hr : route get_readiness = Readiness) by (vm_compute; reflexivity).
  split.
  - exact (proj1 (proj2 (readiness_flag hmac_env one_clip [] [Incoming get_clip]))
             get_readiness Hr).
  - exact (proj1 (proj2 (readiness_flag hmac_env one_clip []
                           [Incoming get_clip; Listening; Incoming get_unknown]))
             get_readiness Hr).
Defined.

(** ** Further properties of start-up *)

(** A character below 128 that is not white space starts a string that
    [trimStart] leaves alone. *)
Lemma trimStart_keeps (a : ascii) (rest : string) :
  (code a <? 128)%N = true -> ws1 a = false ->
  trimStart (String a rest) = String a rest.
Proof.
  intros Hlt Hws. apply N.ltb_lt in Hlt.
  assert (H2 : forall b, ws2 a b = false).
  { intros b. unfold ws2. destruct (N.eqb_spec (code a) 194); [lia | reflexivity]. }
  assert (H3 : forall b c, ws3 a b c = false).
  { intros b c. unfold ws3. cbv zeta.
    destruct (N.eqb_spec (code a) 225); [lia |].
    destruct (N.eqb_spec (code a) 226); [lia |].
    destruct (N.eqb_spec (code a) 227); [lia |].
    destruct (N.eqb_spec (code a) 239); [lia |].
    reflexivity. }
  cbn [trimStart]. rewrite Hws.
  destruct rest as [| b [| c rest]]; [reflexivity | |].
  - rewrite H2. reflexivity.
  - rewrite H2, H3. reflexivity.
Qed.

(** Reading the digits of a decimal numeral, with a positive number read
    so far. *)
Lemma digits_uint_acc (d : Decimal.uint) :
  forall acc : positive,
    digits 10 (NilEmpty.string_of_uint d) (Some (Z.pos acc))
    = Some (Z.pos (Pos.of_uint_acc d acc)).
Proof.
  induction d; intros acc; cbn [NilEmpty.string_of_uint digits Pos.of_uint_acc];
    [reflexivity | ..];
    match goal with
    | |- context [digit 10 ?c] =>
        let v := eval vm_compute in (digit 10 c) in
        change (digit 10 c) with v
    end;
    cbv iota; cbn [from_option id]; rewrite <- IHd; do 2 f_equal; lia.
Qed.

(** The same from zero. *)
Lemma digits_uint_zero (d : Decimal.uint) :
  digits 10 (NilEmpty.string_of_uint d) (Some 0) = Some (Z.of_N (Pos.of_uint d)).
Proof.
  induction d; cbn [NilEmpty.string_of_uint digits Pos.of_uint];
    [reflexivity | ..];
    match goal with
    | |- context [digit 10 ?c] =>
        let v := eval vm_compute in (digit 10 c) in
        change (digit 10 c) with v
    end;
    cbv iota; cbn [from_option id];
    first [ exact IHd | apply (digits_uint_acc d) ].
Qed.

(** Reading a whole decimal numeral. *)
Lemma digits_numeral (d : Decimal.uint) :
  d <> Decimal.Nil ->
  digits 10 (NilEmpty.string_of_uint d) None = Some (Z.of_N (Pos.of_uint d)).
Proof.
  intros Hd. rewrite <- digits_uint_zero.
  destruct d; [contradiction | ..]; reflexivity.
Qed.

(** A decimal numeral starts with a decimal digit. *)
Lemma numeral_head (d : Decimal.uint) (b : ascii) (r : string) :
  NilEmpty.string_of_uint d = String b r -> digit 10 b <> None.
Proof.
  destruct d; cbn [NilEmpty.string_of_uint]; intros [= <- _]; discriminate.
Qed.

(** [parseInt] on a string that starts with a decimal digit and does not
    go on as a hexadecimal prefix reads decimal digits. *)
Lemma parseInt_unsigned (c : ascii) (rest : string) :
  digit 10 c <> None ->
  (forall b r, rest = String b r -> digit 10 b <> None) ->
  parseInt (String c rest) =
    match digits 10 (String c rest) None with
    | Some m => to_double (1 * m)
    | None => NaN
    end.
Proof.
  intros Hc Hrest.
  destruct c as [[] [] [] [] [] [] [] []];
    try (exfalso; apply Hc; reflexivity);
    unfold parseInt; rewrite trimStart_keeps by reflexivity;
    try reflexivity.
  destruct rest as [| b r]; [reflexivity |].
  specialize (Hrest b r eq_refl).
  destruct b as [[] [] [] [] [] [] [] []];
    try (exfalso; apply Hrest; reflexivity); reflexivity.
Qed.

(** The same after a minus sign. *)
Lemma parseInt_negative (c : ascii) (rest : string) :
  digit 10 c <> None ->
  (forall b r, rest = String b r -> digit 10 b <> None) ->
  parseInt (String "-" (String c rest)) =
    match digits 10 (String c rest) None with
    | Some m => to_double (-1 * m)
    | None => NaN
    end.
Proof.
  intros Hc Hrest.
  unfold parseInt. rewrite trimStart_keeps by reflexivity.
  destruct c as [[] [] [] [] [] [] [] []];
    try (exfalso; apply Hc; reflexivity);
    try reflexivity.
  destruct rest as [| b r]; [reflexivity |].
  specialize (Hrest b r eq_refl).
  destruct b as [[] [] [] [] [] [] [] []];
    try (exfalso; apply Hrest; reflexivity); reflexivity.
Qed.

(** Up to 2^53 in absolute value an integer is a double and prints as
    its decimal numeral. *)
Lemma to_double_exact (z : Z) : Z.abs z <= 2 ^ 53 -> to_double z = Int z.
Proof.
  intros Hz. unfold to_double. cbv zeta.
  destruct (Z.leb_spec (Z.abs z) (2 ^ 53)); [reflexivity | lia].
Qed.

Lemma show_exact (z : Z) : Z.abs z <= 2 ^ 53 -> show (Int z) = decimal z.
Proof.
  intros Hz. cbn [show].
  destruct (Z.leb_spec (Z.abs z) (2 ^ 53)); [reflexivity | lia].
Qed.

(** [parseInt] reads back the decimal numeral of every integer up to 2^53
    in absolute value. *)
Lemma parseInt_show (z : Z) :
  Z.abs z <= 2 ^ 53 -> parseInt (show (Int z)) = Int z.
Proof.
  intros Hz. rewrite (show_exact z Hz). rewrite <- (to_double_exact z Hz).
  unfold decimal.
  destruct z as [| p | p]; [reflexivity | |];
    cbn [Z.to_int NilZero.string_of_int];
    pose proof (DecimalPos.Unsigned.to_uint_nonnil p) as Hnil;
    pose proof (DecimalPos.Unsigned.of_to p) as Hback;
    pose proof (digits_numeral (Pos.to_uint p) Hnil) as Hdigits;
    destruct (Pos.to_uint p) as [| d | d | d | d | d | d | d | d | d | d];
    try contradiction;
    cbn [NilZero.string_of_uint NilEmpty.string_of_uint] in *.
  all: first
    [ rewrite parseInt_negative
    | rewrite parseInt_unsigned ];
    try discriminate;
    try exact (numeral_head d).
  all: rewrite Hdigits, Hback; f_equal; lia.
Qed.

(** X1.  Whatever the environment holds, the port is a number other than
    NaN and zero, and [app.listen] is called with that port or not at
    all. *)
Theorem port_never_falsy (P : Platform) (env : Env) :
  truthy (PORT env) = true /\
  (listens (start P env) = None \/ listens (start P env) = Some (PORT env)).
Proof.
  split.
  - unfold PORT. destruct (env !! "PORT") as [s |]; [| reflexivity].
    destruct (String.eqb s ""); [reflexivity |].
    cbv zeta. destruct (truthy (parseInt s)) eqn:Ht; [exact Ht | reflexivity].
  - unfold start, main.
    destruct (CONFIG env) as [e | cfg]; [left; reflexivity |].
    destruct (new_S3 P cfg); [left; reflexivity |].
    destruct (validate env) as [e | []]; [left; reflexivity |].
    cbn [bind ret]. destruct (app_listen P (PORT env)); right; reflexivity.
Qed.

(** The decimal numeral of an integer is not the empty string. *)
Lemma decimal_not_empty (z : Z) : String.eqb (decimal z) "" = false.
Proof.
  unfold decimal.
  destruct z as [| p | p]; [reflexivity | | reflexivity].
  cbn [Z.to_int NilZero.string_of_int].
  pose proof (DecimalPos.Unsigned.to_uint_nonnil p) as Hnil.
  destruct (Pos.to_uint p); [contradiction | ..]; reflexivity.
Qed.

(** X2.  When PORT holds the decimal numeral of an integer other than
    zero and at most 2^53 in absolute value, the port is that integer. *)
Theorem port_reads_decimal (env : Env) (z : Z) :
  z <> 0 ->
  Z.abs z <= 2 ^ 53 ->
  env !! "PORT" = Some (show (Int z)) ->
  PORT env = Int z.
Proof.
  intros Hz Hbound Hport. unfold PORT. rewrite Hport.
  rewrite (parseInt_show z Hbound), (show_exact z Hbound), decimal_not_empty.
  cbv zeta. cbn [truthy].
  destruct (Z.eqb_spec z 0); [contradiction | reflexivity].
Qed.

(** PORT set to 8080. *)
Lemma port_reads_decimal_witness :
  8080 <> 0 /\ Z.abs 8080 <= 2 ^ 53 /\
  port_8080_env !! "PORT" = Some (show (Int 8080)) /\
  PORT port_8080_env = Int 8080.
Proof.
  split; [discriminate |]. split; [vm_compute; discriminate |].
  split; [vm_compute; reflexivity |].
  exact (port_reads_decimal port_8080_env 8080
           ltac:(discriminate) ltac:(vm_compute; discriminate)
           ltac:(vm_compute; reflexivity)).
Defined.



Lemma getenv_insert_selector (env : Env) (a : string) :
  getenv (<["AUTHENTICATION_TYPE" := a]> env) AUTHENTICATION_TYPE = Some a.
Proof. unfold getenv. cbn [name]. apply lookup_insert_eq. Qed.

Lemma getenv_insert_other (env : Env) (a : string) (v : Setting) :
  v <> AUTHENTICATION_TYPE ->
  getenv (<["AUTHENTICATION_TYPE" := a]> env) v = getenv env v.
Proof.
  intros Hv. unfold getenv. apply lookup_insert_ne.
  destruct v; try discriminate. contradiction.
Qed.

(** A selector that names a mode is not empty. *)
Lemma known_present (a : string) : known a = true -> present (Some a) = true.
Proof. destruct a; [discriminate | reflexivity]. Qed.

(** X4.  The letter case of a selector that names a mode does not matter:
    two environments that differ only in it start up alike. *)
Theorem selector_case_is_ignored (P : Platform) (env : Env) (a b : string) :
  toLowerCase a = toLowerCase b ->
  known a = true ->
  start P (<["AUTHENTICATION_TYPE" := a]> env)
  = start P (<["AUTHENTICATION_TYPE" := b]> env).
Proof.
  intros Hab Ha.
  assert (Hb : known b = true) by (unfold known in *; rewrite <- Hab; exact Ha).
  pose proof (known_present a Ha) as Hpa. pose proof (known_present b Hb) as Hpb.
  unfold start, CONFIG, main, validate, port_notice, uncaughtException,
    failed_to_start, PORT, log.
  rewrite !getenv_insert_selector.
  rewrite !getenv_insert_other by discriminate.
  rewrite !(lookup_insert_ne (M := gmap string)) by discriminate.
  rewrite Hpa, Hpb. cbn [call_toLowerCase bind ret negb]. rewrite Hab.
  unfold known in Hb.
  destruct (String.eqb (toLowerCase b) "hmac"); [reflexivity |].
  destruct (String.eqb (toLowerCase b) "iam"); [reflexivity | discriminate].
Qed.

(** The selector written HMAC and written hmac. *)
Lemma selector_case_is_ignored_witness :
  toLowerCase "HMAC" = toLowerCase "hmac" /\ known "HMAC" = true /\
  start ranged (<["AUTHENTICATION_TYPE" := "HMAC"]> hmac_env)
  = start ranged (<["AUTHENTICATION_TYPE" := "hmac"]> hmac_env).
Proof.
  split; [reflexivity |]. split; [reflexivity |].
  exact (selector_case_is_ignored ranged hmac_env "HMAC" "hmac" eq_refl eq_refl).
Defined.

(** X5.  Start-up never blames a setting that is set: when [main] throws
    the error that names a setting, that setting is absent or empty. *)
Theorem reported_setting_is_unset (P : Platform) (env : Env) (v : Setting)
    (logs : list LogLine) :
  start P env = Resumed (Error (missing v)) logs ->
  unset env v = true.
Proof.
  unfold start, CONFIG, main.
  destruct (getenv env AUTHENTICATION_TYPE) as [a |] eqn:Ha;
    cbn [call_toLowerCase bind ret throw]; [| discriminate].
  destruct (new_S3 P _); [discriminate |].
  destruct (validate env) as [e | []] eqn:Hv; cbn [bind ret];
    [| destruct (app_listen P (PORT env)); discriminate].
  intros [= -> _]. revert Hv. unfold validate, unset. rewrite Ha.
  destruct (present (getenv env BUCKET_NAME)) eqn:H1; cbn [negb];
    [| intros [= H]; destruct v; try discriminate H; rewrite H1; reflexivity].
  destruct (present (getenv env ENDPOINT)) eqn:H2; cbn [negb];
    [| intros [= H]; destruct v; try discriminate H; rewrite H2; reflexivity].
  destruct (present (Some a)) eqn:H3; cbn [negb];
    [| intros [= H]; destruct v; try discriminate H; rewrite Ha, H3; reflexivity].
  cbn [call_toLowerCase bind ret].
  destruct (String.eqb (toLowerCase a) "hmac").
  - destruct (present (getenv env REGION)) eqn:H4; cbn [negb];
      [| intros [= H]; destruct v; try discriminate H; rewrite H4; reflexivity].
    destruct (present (getenv env SECRET_ACCESS_KEY)) eqn:H5; cbn [negb];
      [| intros [= H]; destruct v; try discriminate H; rewrite H5; reflexivity].
    destruct (present (getenv env ACCESS_KEY_ID)) eqn:H6; cbn [negb];
      [discriminate |].
    intros [= H]; destruct v; try discriminate H; rewrite H6; reflexivity.
  - destruct (String.eqb (toLowerCase a) "iam").
    + destruct (present (getenv env API_KEY)) eqn:H4; cbn [negb];
        [| intros [= H]; destruct v; try discriminate H; rewrite H4; reflexivity].
      destruct (present (getenv env SERVICE_INSTANCE_ID)) eqn:H5; cbn [negb];
        [discriminate |].
      intros [= H]; destruct v; try discriminate H; rewrite H5; reflexivity.
    + intros [= H]. destruct v; discriminate H.
Qed.

(** An hmac environment without REGION. *)
Lemma reported_setting_is_unset_witness :
  start ranged no_region_env
    = Resumed (Error (missing REGION))
        (uncaughtException no_region_env (Error (missing REGION))) /\
  unset no_region_env REGION = true.
Proof.
  split; [vm_compute; reflexivity |].
  exact (reported_setting_is_unset ranged no_region_env REGION _
           ltac:(vm_compute; reflexivity)).
Defined.

(** X6.  With AUTHENTICATION_TYPE absent the script dies of a TypeError
    while it evaluates CONFIG: [app.listen] is not called, nothing is
    logged by [main], and the error is none of those [main] throws for a
    missing setting. *)
Theorem absent_selector_crashes (P : Platform) (env : Env) (v : Setting) :
  getenv env AUTHENTICATION_TYPE = None ->
  start P env = Crashed (TypeError "toLowerCase") /\
  listens (start P env) = None /\
  failure (start P env) <> Some (Error (missing v)).
Proof.
  intros H. rewrite (start_without_selector P env H).
  split; [reflexivity |]. split; [reflexivity |]. discriminate.
Qed.

(** A complete hmac environment but for the selector. *)
Lemma absent_selector_crashes_witness :
  getenv no_selector_env AUTHENTICATION_TYPE = None /\
  start ranged no_selector_env = Crashed (TypeError "toLowerCase").
Proof.
  split; [vm_compute; reflexivity |].
  exact (proj1 (absent_selector_crashes ranged no_selector_env AUTHENTICATION_TYPE
                  ltac:(vm_compute; reflexivity))).
Defined.

(** ** Further properties of the routes *)

(** Split a goal about the application by route, query, and the outcome of
    the storage call. *)
Ltac by_handler client req :=
  unfold app_handle, readiness, video, upload, fallback;
  let Hr := fresh "Hroute" in
  destruct (route req) eqn:Hr;
  try match goal with
      | |- context [query req !! "id"] =>
          let Hq := fresh "Hquery" in destruct (query req !! "id") eqn:Hq
      end;
  try match goal with
      | |- context [fetch client ?b ?k] =>
          let Hf := fresh "Hfetch" in destruct (fetch client b k) eqn:Hf
      end;
  try match goal with
      | |- context [bool_decide ?P] =>
          let Hc := fresh "Hcode" in destruct (bool_decide P) eqn:Hc
      end;
  try match goal with
      | |- context [store client ?b ?k ?t ?l ?c] =>
          let Hs := fresh "Hstore" in destruct (store client b k t l c) eqn:Hs
      end;
  cbn [List.app].

(** X7.  Every request is answered exactly once, as the last thing its
    handler does: nothing is logged, set or called after the response is
    sent, whatever the route and whatever the storage does. *)
Theorem answered_once_at_end (env : Env) (client : Client) (flag : bool)
    (req : Request) :
  answers_at_end (app_handle env client flag req) = true /\
  length (filter (fun e => sent e = true) (app_handle env client flag req)) = 1%nat.
Proof.
  by_handler client req; split; reflexivity.
Qed.

(** X8.  The status of a response is 200, 404 or 500; the fallback
    middleware always answers 404, and none of the three route handlers
    ever does. *)
Theorem status_is_200_404_or_500 (env : Env) (client : Client) (flag : bool)
    (req : Request) :
  let code := fun effects => statusCode (respond effects fresh) in
  (code (app_handle env client flag req) = 200 \/
   code (app_handle env client flag req) = 404 \/
   code (app_handle env client flag req) = 500) /\
  code (fallback env req) = 404 /\
  code (readiness flag req) <> 404 /\
  code (video env client req) <> 404 /\
  code (upload env client req) <> 404.
Proof.
  cbv zeta. split; [| split; [reflexivity | split; [| split]]].
  - by_handler client req; cbn [respond statusCode fresh];
      try destruct flag; cbn [Bool.eqb]; auto.
  - unfold readiness. destruct flag; discriminate.
  - unfold video.
    destruct (query req !! "id"); [| discriminate].
    destruct (fetch client _ _); [discriminate |].
    destruct (bool_decide _); discriminate.
  - unfold upload. destruct (store client _ _ _ _ _); discriminate.
Qed.

(** X9.  The fallback middleware answers 404 with an HTML body that
    quotes the URL of the request, logs one line, at level error, that
    quotes the URL too, and does not call the storage; and it is what
    answers every request whose method is none of GET, HEAD and POST. *)
Theorem unmatched_is_not_found (env : Env) (client : Client) (flag : bool)
    (req : Request) :
  let effects := fallback env req in
  respond effects fresh =
    {| statusCode := 404; header := ∅;
       payload := Some (Html ("<h1>Unable to find the requested resource ("
                              ++ url req ++ ")!</h1>")) |} /\
  logged effects =
    [ log env error (Text ("Unable to find the requested resource (" ++ url req ++ ")!"))
        (Some "-1") ] /\
  invoked effects = [] /\
  (reads (method req) = false -> posts (method req) = false ->
   app_handle env client flag req = effects).
Proof.
  cbv zeta. split; [reflexivity |]. split; [reflexivity |]. split; [reflexivity |].
  intros Hr Hp. unfold app_handle, route. rewrite Hr, Hp. reflexivity.
Qed.

(** A PUT on the path of the download route. *)
Lemma unmatched_is_not_found_witness :
  reads (method put_video) = false /\ posts (method put_video) = false /\
  app_handle hmac_env one_clip true put_video = fallback hmac_env put_video /\
  statusCode (respond (fallback hmac_env put_video) fresh) = 404.
Proof.
  split; [reflexivity |]. split; [reflexivity |].
  pose proof (unmatched_is_not_found hmac_env one_clip true put_video)
    as [Hres [_ [_ Hany]]].
  split; [exact (Hany eq_refl eq_refl) |].
  exact (f_equal statusCode Hres).
Defined.

(** X10.  The method bounds what a request can do to the storage: a GET or
    HEAD request only ever reads an object, a POST request only ever
    writes one, and a request with any other method does not reach the
    storage. *)
Theorem method_bounds_storage_access (env : Env) (client : Client) (flag : bool)
    (req : Request) :
  let calls := invoked (app_handle env client flag req) in
  match method req with
  | GET | HEAD => forallb is_read calls = true
  | POST => forallb (fun c => negb (is_read c)) calls = true
  | OtherMethod _ => calls = []
  end.
Proof.
  unfold app_handle, route.
  destruct (method req); cbn [reads posts andb];
    repeat match goal with
    | |- context [matches ?r ?p] => destruct (matches r p)
    end;
    unfold readiness, video, upload, fallback;
    try destruct (query req !! "id");
    try destruct (fetch client _ _);
    try destruct (bool_decide (_ = Some "NoSuchKey"));
    try destruct (store client _ _ _ _ _);
    reflexivity.
Qed.

(** X11.  A request causes at most one call on the storage, and every call
    names the configured bucket. *)
Theorem one_call_on_configured_bucket (env : Env) (client : Client) (flag : bool)
    (req : Request) :
  let calls := invoked (app_handle env client flag req) in
  (length calls <= 1)%nat /\
  Forall (fun c => bucket_of c = getenv env BUCKET_NAME) calls.
Proof.
  by_handler client req; cbv zeta; cbn [invoked length];
    (split; [lia | repeat constructor]).
Qed.

(** X12.  A response with status 200 comes with no line at level error:
    whenever a handler logs an error, the status is not 200. *)
Theorem ok_logs_no_error (env : Env) (client : Client) (flag : bool)
    (req : Request) :
  statusCode (respond (app_handle env client flag req) fresh) = 200 ->
  Forall (fun l => level l = info) (logged (app_handle env client flag req)).
Proof.
  by_handler client req; cbn [respond statusCode fresh logged];
    try discriminate; intros _; repeat constructor.
Qed.

(** The upload of three bytes. *)
Lemma ok_logs_no_error_witness :
  statusCode (respond (app_handle hmac_env one_clip true post_foo) fresh) = 200 /\
  Forall (fun l => level l = info) (logged (app_handle hmac_env one_clip true post_foo)).
Proof.
  assert (H : statusCode (respond (app_handle hmac_env one_clip true post_foo) fresh) = 200)
    by (vm_compute; reflexivity).
  split; [exact H |].
  exact (ok_logs_no_error hmac_env one_clip true post_foo H).
Defined.

(** Every line a handler logs carries the application and service names. *)
Lemma handler_logs_tagged (env : Env) (client : Client) (flag : bool) (req : Request) :
  Forall (tagged env) (logged (app_handle env client flag req)).
Proof.
  by_handler client req; cbn [logged]; repeat constructor.
Qed.

Lemma notices_tagged (P : Platform) (env : Env) :
  Forall (tagged env) (notices (start P env)).
Proof.
  unfold start, main.
  destruct (CONFIG env) as [e | cfg]; [constructor |].
  destruct (new_S3 P cfg); [constructor |].
  destruct (validate env); [constructor |].
  cbn [bind ret]. destruct (app_listen P (PORT env)); cbn [notices];
    destruct (env !! "PORT"); repeat constructor.
Qed.

Lemma run_tagged (env : Env) (client : Client) (events : list Event) :
  forall p, Forall (tagged env) (journal p) ->
    Forall (tagged env) (journal (run env client p events)).
Proof.
  induction events as [| ev events IH]; intros p Hp; [exact Hp |].
  change (run env client p (ev :: events))
    with (run env client (fst (step env client p ev)) events).
  apply IH. destruct ev as [| req]; cbn [step fst].
  - destruct (settled p); [exact Hp |].
    cbn [on_listening journal]. apply Forall_app. split; [exact Hp |].
    repeat constructor.
  - cbn [journal]. apply Forall_app. split; [exact Hp |].
    apply handler_logs_tagged.
Qed.

(** X13.  Every line the process logs, from the notice of start-up through
    any sequence of requests, carries the application name of
    APP_NAME_VER and the service name of SVC_NAME. *)
Theorem logs_are_tagged (P : Platform) (env : Env) (client : Client)
    (events : list Event) :
  Forall (tagged env)
    (journal (run env client (boot (notices (start P env))) events)).
Proof.
  apply run_tagged. cbn [boot journal]. apply notices_tagged.
Qed.

(** X14.  A handler calls [res.set] only in a download that found its
    object: in every other case no header is set on the response. *)
Theorem headers_only_on_download (env : Env) (client : Client) (flag : bool)
    (req : Request) :
  let res := respond (app_handle env client flag req) fresh in
  header res = ∅ \/
  exists key data,
    query req !! "id" = Some key /\
    fetch client (getenv env BUCKET_NAME) (Some key) = Fulfilled data /\
    header res =
      <["Content-Type" := res_set "Content-Type" (ContentType data)]>
        (<["Content-Length" := show (Int (ContentLength data))]> ∅).
Proof.
  by_handler client req; cbv zeta; cbn [respond header fresh];
    try (left; reflexivity).
  right. do 2 eexists.
  split; [reflexivity |]. split; [eassumption | reflexivity].
Qed.

(** X15.  [getListOfFiles] never lists anything: its body reads the
    identifier CLIENT, which the script does not bind, so for every
    prefix and every storage the promise is rejected with a
    ReferenceError before any call reaches the storage. *)
Theorem getListOfFiles_never_lists (client : Lister) (env : Env) (fuel : nat)
    (prefix : string) :
  getListOfFiles (module_scope client) env fuel prefix =
    Some {| promise := Rejected (ReferenceError "CLIENT"); requests := []; console := [] |}.
Proof.
  unfold getListOfFiles. destruct fuel; reflexivity.
Qed.

(** Under a scope that did bind CLIENT, the function would page through
    the listing. *)
Example listAllKeys_pages :
  option_map promise (getListOfFiles (fun _ => Some two_pages) hmac_env 1 "")
  = Some (Fulfilled ["a"; "b"; "c"]).
Proof. vm_compute. reflexivity. Qed.

(** X16.  On the three registered routes every line logged for a request
    carries what the request's x-correlation-id header holds (undefined
    when the header is absent). *)
Theorem routes_log_correlation_id (env : Env) (client : Client) (flag : bool)
    (req : Request) :
  route req <> Fallback ->
  Forall (fun l => requestId l = headers req !! "x-correlation-id")
         (logged (app_handle env client flag req)).
Proof.
  intros Hr. by_handler client req; try contradiction; cbn [logged]; repeat constructor.
Qed.

(** The download of the stored clip. *)
Lemma routes_log_correlation_id_witness :
  route get_clip <> Fallback /\
  Forall (fun l => requestId l = Some "r-17")
         (logged (app_handle hmac_env one_clip true get_clip)).
Proof.
  assert (Hr : route get_clip <> Fallback) by (vm_compute; discriminate).
  split; [exact Hr |].
  pose proof (routes_log_correlation_id hmac_env one_clip true get_clip Hr) as H.
  assert (Hc : headers get_clip !! "x-correlation-id" = Some "r-17")
    by (vm_compute; reflexivity).
  rewrite Hc in H. exact H.
Defined.
